(** * tts_infer.py: the F5-TTS command-line driver

    A shallow embedding of [src/tts_infer.py] and the properties of its
    single routine [main].  The script parses its command line with
    argparse, creates the output directory, and then calls the external
    f5_tts library step by step.  The embedding is layered as follows.

    - [PyStr]: the few string operations of Python the script relies on.
    - [Py]: exceptions with the part of the class hierarchy that the
      [except] clauses of the script and of pathlib look at.
    - [Posix]: a directory tree with the system calls behind
      [os.path.exists], [os.mkdir] and [Path.is_dir].
    - [Pathlib]: pure POSIX paths, [/] and [Path.mkdir].
    - [Argparse]: the parser that the [add_argument] calls build.
    - [TtsInfer]: the module-level constants and [main] itself, written in
      a monad that threads the file system, collects the trace of
      externally visible operations, and propagates exceptions.
    - [Terms]: the vocabulary of the statements about the command line,
      the file system and the calls.
    - [Sample]: concrete worlds on which the definitions evaluate.
    - [PosixFacts], [ArgparseFacts], [ParserFacts], [RunFacts],
      [CommandLineFacts], [PathFacts], [OutcomeFacts], [StageFacts]: the
      properties; [Runs], [MoreRuns]: the properties on sample runs.

    The external library (f5_tts, omegaconf, soundfile) and the conversion
    builtins [float] and [int] are parameters: every statement about
    [main] holds for all of their behaviours.

    What the model takes from the Python standard library follows
    CPython 3.10 and 3.11 on a POSIX system, including what these versions
    do with an option written [--opt=--]: the argument [--] is dropped and
    the attribute becomes the empty list.  Strings are byte strings
    (UTF-8).  Not modelled: what argparse prints and the exit status of
    [SystemExit]; a failure of [print]; a failure of the imports of [DiT]
    and [UNetT] (the module is loaded with [utils_infer] already);
    symbolic links and permissions; digits outside ASCII in the test of
    argparse for negative numbers. *)

From Stdlib Require Import PrimFloat.
From Stdlib Require Import ZArith Ascii String List Lia.
From stdpp Require Import base option list gmap strings.

#[local] Open Scope string_scope.
#[local] Open Scope list_scope.
Set Warnings "-inexact-float".

(* ===================================================================== *)
(** * Python strings *)
(* ===================================================================== *)

Module PyStr.

(** [s.split(sep)] for a one-character separator: never empty. *)
Fixpoint split_on (sep : ascii) (s : string) : list string :=
  match s with
  | EmptyString => [EmptyString]
  | String c rest =>
      if Ascii.eqb c sep then EmptyString :: split_on sep rest
      else match split_on sep rest with
           | [] => [String c EmptyString]
           | w :: ws => String c w :: ws
           end
  end.

(** [s.split(sep, 1)] when [sep] occurs in [s]: the text before the first
    occurrence and the text after it. *)
Fixpoint split_once (sep : ascii) (s : string) : option (string * string) :=
  match s with
  | EmptyString => None
  | String c rest =>
      if Ascii.eqb c sep then Some (EmptyString, rest)
      else match split_once sep rest with
           | Some (l, r) => Some (String c l, r)
           | None => None
           end
  end.

(** [sep in s]. *)
Fixpoint contains (sep : ascii) (s : string) : bool :=
  match s with
  | EmptyString => false
  | String c rest => Ascii.eqb c sep || contains sep rest
  end.

(** [s.startswith(p)]. *)
Definition startswith (s p : string) : bool := String.prefix p s.

(** [s.endswith(c)] for a single character. *)
Fixpoint endswith (s : string) (c : ascii) : bool :=
  match s with
  | EmptyString => false
  | String d EmptyString => Ascii.eqb d c
  | String _ rest => endswith rest c
  end.

(** [s.lstrip(c)] for a single character. *)
Fixpoint lstrip (c : ascii) (s : string) : string :=
  match s with
  | String d rest => if Ascii.eqb d c then lstrip c rest else s
  | EmptyString => EmptyString
  end.

(** [sep.join(l)]. *)
Definition join (sep : string) (l : list string) : string := String.concat sep l.

(** [x in l] for a list of strings. *)
Definition mem (x : string) (l : list string) : bool :=
  existsb (String.eqb x) l.

Definition is_digit (c : ascii) : bool :=
  let n := nat_of_ascii c in (48 <=? n)%nat && (n <=? 57)%nat.

Fixpoint all_digits (s : string) : bool :=
  match s with
  | EmptyString => true
  | String c rest => is_digit c && all_digits rest
  end.

End PyStr.

(* ===================================================================== *)
(** * Exceptions *)
(* ===================================================================== *)

Module Py.

(** The exception classes that occur in the script, in argparse and in
    pathlib.  [OtherError] stands for any class outside this hierarchy
    that an external call may raise. *)
Inductive exc_class :=
  | SystemExit
  | ImportError
  | ModuleNotFoundError
  | OSError
  | FileNotFoundError
  | FileExistsError
  | NotADirectoryError
  | ValueError
  | TypeError
  | OtherError (name : string).

Record exc := Exc { exc_cls : exc_class; exc_msg : string }.

#[global] Instance exc_class_eq_dec : EqDecision exc_class.
Proof. solve_decision. Defined.

(** [issubclass(c, d)]. *)
Definition issubclass (c d : exc_class) : bool :=
  match d, c with
  | ImportError, (ImportError | ModuleNotFoundError) => true
  | OSError, (OSError | FileNotFoundError | FileExistsError | NotADirectoryError) => true
  | _, _ => bool_decide (c = d)
  end.

(** [isinstance(e, (d1, ..., dn))], the test of an [except] clause. *)
Definition isinstance (e : exc) (ds : list exc_class) : bool :=
  existsb (issubclass (exc_cls e)) ds.

(** The value of an attribute that an option stores: an [A], or the empty
    list [[]]. *)
Inductive stored (A : Type) : Type :=
  | value (a : A)
  | empty_list.

Arguments value {A} a.
Arguments empty_list {A}.

(** [str(x)], as an f-string formats a stored string. *)
Definition format (x : stored string) : string :=
  match x with
  | value s => s
  | empty_list => "[]"
  end.

End Py.

(* ===================================================================== *)
(** * The file system *)
(* ===================================================================== *)

Module Posix.
Import Py.

Inductive kind := File | Dir.

(** A path as the kernel reads it: where resolution starts and the
    components to walk, empty components dropped. *)
Record os_path := OsPath { absolute : bool; comps : list string }.

(** A tree of files and directories, keyed by the components from the
    root, and the working directory.  The root always exists.  Symbolic
    links and permissions are not part of the model. *)
Record fs := Fs { nodes : gmap (list string) kind; cwd : list string }.

Definition node_at (f : fs) (p : list string) : option kind :=
  match p with
  | [] => Some Dir
  | _ => nodes f !! p
  end.

Definition nonempty (s : string) : bool := negb (String.eqb s "").

(** The kernel's reading of a path string. *)
Definition os_path_of (s : string) : os_path :=
  {| absolute := PyStr.startswith s "/";
     comps := List.filter nonempty (PyStr.split_on "/" s) |}.

Definition start (f : fs) (p : os_path) : list string :=
  if absolute p then [] else cwd f.

(** One step of path resolution from the directory [cur]. *)
Definition step (cur : list string) (c : string) : list string :=
  if String.eqb c "." then cur
  else if String.eqb c ".." then removelast cur
  else cur ++ [c].

(** Path resolution: every component is looked up in a directory. *)
Fixpoint walk (f : fs) (cur : list string) (cs : list string) : exc_class + list string :=
  match cs with
  | [] => inr cur
  | c :: rest =>
      match node_at f cur with
      | None => inl FileNotFoundError
      | Some File => inl NotADirectoryError
      | Some Dir => walk f (step cur c) rest
      end
  end.

(** [stat(2)]. *)
Definition stat (f : fs) (p : os_path) : exc_class + kind :=
  match walk f (start f p) (comps p) with
  | inl e => inl e
  | inr r => match node_at f r with
             | None => inl FileNotFoundError
             | Some k => inr k
             end
  end.

(** [os.path.exists(s)]: false on any error.  A path that ends in a
    slash must lead to a directory. *)
Definition os_path_exists (f : fs) (s : string) : bool :=
  if String.eqb s "" then false
  else match stat f (os_path_of s) with
       | inr Dir => true
       | inr File => negb (PyStr.endswith s "/")
       | inl _ => false
       end.

(** [os.path.isdir] on an already split path, as [Path.is_dir] uses it. *)
Definition is_dir (f : fs) (p : os_path) : bool :=
  match stat f p with
  | inr Dir => true
  | _ => false
  end.

(** Adding a directory node. *)
Definition add_dir (f : fs) (k : list string) : fs :=
  {| nodes := <[k := Dir]> (nodes f); cwd := cwd f |}.

(** [mkdir(2)]: the parent must resolve to a directory and the last
    component must be new. *)
Definition os_mkdir (f : fs) (p : os_path) : exc_class + fs :=
  match rev (comps p) with
  | [] => inl FileExistsError
  | last :: rinit =>
      match walk f (start f p) (rev rinit) with
      | inl e => inl e
      | inr d =>
          match node_at f d with
          | None => inl FileNotFoundError
          | Some File => inl NotADirectoryError
          | Some Dir =>
              if String.eqb last "." || String.eqb last ".." then inl FileExistsError
              else match node_at f (d ++ [last]) with
                   | Some _ => inl FileExistsError
                   | None => inr (add_dir f (d ++ [last]))
                   end
          end
      end
  end.




End Posix.

(* ===================================================================== *)
(** * pathlib *)
(* ===================================================================== *)

Module Pathlib.
Import Py Posix.

(** A [PurePosixPath]: the root ([""], ["/"] or ["//"]) and the parts
    after it. *)
Record PurePath := MkPath { root : string; parts : list string }.

(** [splitroot]: exactly two leading slashes are kept, any other number of
    leading slashes is one. *)
Definition splitroot (part : string) : string * string :=
  if PyStr.startswith part "/" then
    let stripped := PyStr.lstrip "/" part in
    if (String.length part - String.length stripped =? 2)%nat
    then ("//", stripped) else ("/", stripped)
  else ("", part).

Definition keep_part (x : string) : bool :=
  negb (String.eqb x "") && negb (String.eqb x ".").

(** [Path(s)]: empty and ["."] components are dropped. *)
Definition Path (s : string) : PurePath :=
  let '(r, rel) := splitroot s in
  {| root := r; parts := List.filter keep_part (PyStr.split_on "/" rel) |}.

(** [p / s]: an absolute right operand replaces the left one. *)
Definition truediv (p : PurePath) (s : string) : PurePath :=
  let q := Path s in
  if String.eqb (root q) "" then {| root := root p; parts := parts p ++ parts q |}
  else q.

(** [str(p)]. *)
Definition str (p : PurePath) : string :=
  match root p, parts p with
  | EmptyString, [] => "."
  | r, ps => r +:+ PyStr.join "/" ps
  end.

(** [os.fspath(p)] as the kernel reads it. *)
Definition fspath (p : PurePath) : os_path := os_path_of (str p).

Definition is_dir (f : fs) (p : PurePath) : bool := Posix.is_dir f (fspath p).

Definition os_error (c : exc_class) (p : PurePath) : exc := Exc c (str p).

(** [p.mkdir(parents=False, exist_ok=exist_ok)].  An exception comes
    with the file system as the call leaves it. *)
Definition mkdir_flat (f : fs) (p : PurePath) (exist_ok : bool) : exc * fs + fs :=
  match os_mkdir f (fspath p) with
  | inr f' => inr f'
  | inl FileNotFoundError => inl (os_error FileNotFoundError p, f)
  | inl e => if negb exist_ok || negb (is_dir f p) then inl (os_error e p, f) else inr f
  end.

(** [p.mkdir(parents=True, exist_ok=exist_ok)], by recursion on the parts
    of [p] from the last one: [rparts] is [parts p] reversed, so that the
    parent of the path is the tail.  A call that raises may have created
    parents before. *)
Fixpoint mkdir_parents (f : fs) (r : string) (rparts : list string) (exist_ok : bool)
    : exc * fs + fs :=
  let p := {| root := r; parts := rev rparts |} in
  match os_mkdir f (fspath p) with
  | inr f' => inr f'
  | inl FileNotFoundError =>
      match rparts with
      | [] => inl (os_error FileNotFoundError p, f)
      | _ :: rparent =>
          match mkdir_parents f r rparent true with
          | inl e => inl e
          | inr f1 => mkdir_flat f1 p exist_ok
          end
      end
  | inl e => if negb exist_ok || negb (is_dir f p) then inl (os_error e p, f) else inr f
  end.

(** [p.mkdir(parents=parents, exist_ok=exist_ok)]. *)
Definition mkdir (f : fs) (p : PurePath) (parents exist_ok : bool) : exc * fs + fs :=
  if parents then mkdir_parents f (root p) (rev (parts p)) exist_ok
  else mkdir_flat f p exist_ok.



End Pathlib.

(* ===================================================================== *)
(** * argparse *)
(* ===================================================================== *)

Module Argparse.
Import Py.

(** The conversion functions named by [type=float] and [type=int]:
    [None] stands for the [ValueError] they raise. *)
Record builtins := Builtins {
  py_float : string -> option float;
  py_int : string -> option Z
}.

Section Parser.
Context {N : Type}.

(** What an [add_argument] call registers: the action, with the
    conversion ([type=]), the admitted [choices=] and the attribute of the
    namespace it sets. *)
Inductive action :=
  | store_str (choices : option (list string)) (set : stored string -> N -> N)
  | store_float (set : stored float -> N -> N)
  | store_int (set : stored Z -> N -> N)
  | store_true (set : bool -> N -> N)
  | help.

(** [_option_string_actions]. *)
Definition parser := list (string * action).

(** [ArgumentParser()] registers [-h] and [--help] first. *)
Definition ArgumentParser (arguments : parser) : parser :=
  ("-h", help) :: ("--help", help) :: arguments.

(** All actions of the script take one argument or none. *)
Definition takes_value (a : action) : bool :=
  match a with
  | store_true _ | help => false
  | _ => true
  end.

Fixpoint lookup_option (p : parser) (s : string) : option action :=
  match p with
  | [] => None
  | (o, a) :: rest => if String.eqb s o then Some a else lookup_option rest s
  end.

(** How [_parse_optional] reads one argument string. *)
Inductive arg_class :=
  | Positional
  | Optional (option_string : string) (a : action) (explicit_arg : option string)
  | Ambiguous
  | Unrecognized.

(** The regular expression [^-\d+$|^-\d*\.\d+$] on ASCII digits; [$] also
    matches before a final newline. *)
Definition chomp (s : string) : string :=
  match rev (list_ascii_of_string s) with
  | c :: r => if Ascii.eqb c "010" then string_of_list_ascii (rev r) else s
  | [] => s
  end.

Definition negative_number (s : string) : bool :=
  match chomp s with
  | String "-" body =>
      match PyStr.split_once "." body with
      | None => negb (String.eqb body "") && PyStr.all_digits body
      | Some (l, r) => PyStr.all_digits l && negb (String.eqb r "") && PyStr.all_digits r
      end
  | _ => false
  end.

(** [_get_option_tuples]: the options a string abbreviates.  A string with
    two dashes abbreviates every option that starts with it (up to the
    [=]); a string with one dash matches the one-character option it
    starts with, or an option that starts with the whole string. *)
Definition get_option_tuples (p : parser) (s : string) : list (string * action * option string) :=
  if PyStr.startswith s "--" then
    let '(option_prefix, explicit_arg) :=
      match PyStr.split_once "=" s with
      | Some (l, r) => (l, Some r)
      | None => (s, None)
      end in
    omap (fun '(o, a) =>
            if PyStr.startswith o option_prefix then Some (o, a, explicit_arg) else None) p
  else
    let short_option_prefix := substring 0 2 s in
    let short_explicit_arg := substring 2 (String.length s - 2) s in
    omap (fun '(o, a) =>
            if String.eqb o short_option_prefix then Some (o, a, Some short_explicit_arg)
            else if PyStr.startswith o s then Some (o, a, None)
            else None) p.

(** [_parse_optional]. *)
Definition parse_optional (p : parser) (s : string) : arg_class :=
  match s with
  | EmptyString => Positional
  | String c _ =>
      if negb (Ascii.eqb c "-") then Positional
      else match lookup_option p s with
      | Some a => Optional s a None
      | None =>
          if (String.length s =? 1)%nat then Positional
          else
            let exact :=
              match PyStr.split_once "=" s with
              | Some (o, e) =>
                  match lookup_option p o with
                  | Some a => Some (Optional o a (Some e))
                  | None => None
                  end
              | None => None
              end in
            match exact with
            | Some r => r
            | None =>
                match get_option_tuples p s with
                | _ :: _ :: _ => Ambiguous
                | [(o, a, e)] => Optional o a e
                | [] =>
                    if negative_number s then Positional
                    else if PyStr.contains " " s then Positional
                    else Unrecognized
                end
            end
      end
  end.

(** A string that can be the argument of an option: pattern [A]. *)
Definition is_argument (p : parser) (s : string) : bool :=
  negb (String.eqb s "--") &&
  match parse_optional p s with
  | Positional => true
  | _ => false
  end.

Context (bi : builtins).

(** [arg_strings.remove('--')]: the first [--] is taken out. *)
Fixpoint remove_dashes (arg_strings : list string) : list string :=
  match arg_strings with
  | [] => []
  | s :: rest => if String.eqb s "--" then rest else s :: remove_dashes rest
  end.

(** [_get_values] for an option of one argument, and the action itself.
    The first [--] is removed from the argument strings.  A single string
    that is left is converted ([type=]) and checked against the choices;
    otherwise the value is the list of the converted strings, unchecked:
    for the one argument string [--] that is the empty list.  [None] is
    [parser.error] or the exit of [help]. *)
Definition take_action (a : action) (arg : option string) (ns : N) : option N :=
  match a, arg with
  | store_str choices set, Some s =>
      match remove_dashes [s] with
      | [v] =>
          match choices with
          | Some cs => if PyStr.mem v cs then Some (set (value v) ns) else None
          | None => Some (set (value v) ns)
          end
      | _ => Some (set empty_list ns)
      end
  | store_float set, Some s =>
      match remove_dashes [s] with
      | [v] =>
          match py_float bi v with
          | Some x => Some (set (value x) ns)
          | None => None
          end
      | _ => Some (set empty_list ns)
      end
  | store_int set, Some s =>
      match remove_dashes [s] with
      | [v] =>
          match py_int bi v with
          | Some x => Some (set (value x) ns)
          | None => None
          end
      | _ => Some (set empty_list ns)
      end
  | store_true set, None => Some (set true ns)
  | _, _ => None
  end.

(** [_parse_known_args] followed by the check of [parse_args] that no
    argument string is left over.  The parser has no positional argument,
    so a string that is neither an option nor the argument of one, and
    [--] with all that follows it, are left over.  [None] is [SystemExit];
    what argparse prints and the exit status are not modelled. *)
Fixpoint parse_known_args (p : parser) (arg_strings : list string) (ns : N) : option N :=
  match arg_strings with
  | [] => Some ns
  | s :: rest =>
      if String.eqb s "--" then None
      else match parse_optional p s with
      | Optional _ a explicit_arg =>
          match explicit_arg with
          | Some e =>
              if takes_value a then
                match take_action a (Some e) ns with
                | Some ns' => parse_known_args p rest ns'
                | None => None
                end
              else None
          | None =>
              if takes_value a then
                match rest with
                | v :: rest' =>
                    if is_argument p v then
                      match take_action a (Some v) ns with
                      | Some ns' => parse_known_args p rest' ns'
                      | None => None
                      end
                    else None
                | [] => None
                end
              else
                match take_action a None ns with
                | Some ns' => parse_known_args p rest ns'
                | None => None
                end
          end
      | _ => None
      end
  end.

(** One round of the loop of [_parse_known_args], as a relation: the
    option string [o] of action [a] is read at the head of the argument
    strings, with its argument [arg] if it takes one, and [rest'] remains. *)
Inductive consume_optional (p : parser) :
  list string -> string -> action -> option string -> list string -> Prop :=
  | consume_explicit s o a e rest :
      s <> "--" -> parse_optional p s = Optional o a (Some e) -> takes_value a = true ->
      consume_optional p (s :: rest) o a (Some e) rest
  | consume_next s o a v rest :
      s <> "--" -> parse_optional p s = Optional o a None -> takes_value a = true ->
      is_argument p v = true ->
      consume_optional p (s :: v :: rest) o a (Some v) rest
  | consume_flag s o a rest :
      s <> "--" -> parse_optional p s = Optional o a None -> takes_value a = false ->
      consume_optional p (s :: rest) o a None rest.

(** [parser.parse_args()] on [sys.argv[1:]], starting from the defaults. *)
Definition parse_args (p : parser) (defaults : N) (argv : list string) : exc + N :=
  match parse_known_args p argv defaults with
  | Some ns => inr ns
  | None => inl (Exc SystemExit "")
  end.

End Parser.

Arguments action : clear implicits.
Arguments parser : clear implicits.
Arguments arg_class : clear implicits.

End Argparse.

(* ===================================================================== *)
(** * The script *)
(* ===================================================================== *)

Module TtsInfer.
Import Py Posix Pathlib Argparse.

(** ** Main parameters to edit *)

Definition MODEL : string := "F5TTS_Base".
Definition VOCAB_FILE : string := "model/vocab.txt".
Definition CKPT_FILE : string := "model/model_500000.pt".
Definition VOCODER_NAME : string := "vocos".

Definition REF_AUDIO : string := "voice_samples/huong_giang_4.wav".
Definition REF_TEXT : string :=
  "Bây giờ anh phải cho em một cái hẹn với chị chứ còn biết làm sao nữa à Em bảo rồi rõ ràng là quyền lợi của nhà mình này Đi cà phê thì em mời nước Mà anh chị cứ sợ như kiểu là em gặp anh chị để em ăn thịt Anh chị không bằng ý.".
Definition GEN_TEXT : string :=
  "Không biết căn hộ nhà mình ở Home City của anh chị có nhu cầu bán hoặc cho thuê không ạ?".
Definition SPEED : float := 1.0%float.

Definition OUTPUT_DIR : string := "outputs".
Definition OUTPUT_FILE : string := "synthesized_speech_huong_giang_4.wav".

(** ** Advanced parameters *)

Definition DEFAULT_NFE_STEP : Z := 32.
Definition DEFAULT_CFG_STRENGTH : float := 2.0%float.
Definition DEFAULT_TARGET_RMS : float := 0.1%float.
Definition DEFAULT_CROSS_FADE_DURATION : float := 0.15%float.
Definition DEFAULT_SWAY_SAMPLING_COEF : float := (-1.0)%float.

(** ** The namespace that [parse_args] returns *)

Record Namespace := {
  model : stored string;
  ref_audio : stored string;
  ref_text : stored string;
  gen_text : stored string;
  speed : stored float;
  vocoder_name : stored string;
  vocab_file : stored string;
  ckpt_file : stored string;
  output_file : stored string;
  output_dir : stored string;
  nfe_step : stored Z;
  cfg_strength : stored float;
  target_rms : stored float;
  cross_fade_duration : stored float;
  sway_sampling_coef : stored float;
  remove_silence : bool
}.

Definition set_model v ns :=
  {| model := v; ref_audio := ref_audio ns; ref_text := ref_text ns; gen_text := gen_text ns;
     speed := speed ns; vocoder_name := vocoder_name ns; vocab_file := vocab_file ns;
     ckpt_file := ckpt_file ns; output_file := output_file ns; output_dir := output_dir ns;
     nfe_step := nfe_step ns; cfg_strength := cfg_strength ns; target_rms := target_rms ns;
     cross_fade_duration := cross_fade_duration ns;
     sway_sampling_coef := sway_sampling_coef ns; remove_silence := remove_silence ns |}.
Definition set_ref_audio v ns :=
  {| model := model ns; ref_audio := v; ref_text := ref_text ns; gen_text := gen_text ns;
     speed := speed ns; vocoder_name := vocoder_name ns; vocab_file := vocab_file ns;
     ckpt_file := ckpt_file ns; output_file := output_file ns; output_dir := output_dir ns;
     nfe_step := nfe_step ns; cfg_strength := cfg_strength ns; target_rms := target_rms ns;
     cross_fade_duration := cross_fade_duration ns;
     sway_sampling_coef := sway_sampling_coef ns; remove_silence := remove_silence ns |}.
Definition set_ref_text v ns :=
  {| model := model ns; ref_audio := ref_audio ns; ref_text := v; gen_text := gen_text ns;
     speed := speed ns; vocoder_name := vocoder_name ns; vocab_file := vocab_file ns;
     ckpt_file := ckpt_file ns; output_file := output_file ns; output_dir := output_dir ns;
     nfe_step := nfe_step ns; cfg_strength := cfg_strength ns; target_rms := target_rms ns;
     cross_fade_duration := cross_fade_duration ns;
     sway_sampling_coef := sway_sampling_coef ns; remove_silence := remove_silence ns |}.
Definition set_gen_text v ns :=
  {| model := model ns; ref_audio := ref_audio ns; ref_text := ref_text ns; gen_text := v;
     speed := speed ns; vocoder_name := vocoder_name ns; vocab_file := vocab_file ns;
     ckpt_file := ckpt_file ns; output_file := output_file ns; output_dir := output_dir ns;
     nfe_step := nfe_step ns; cfg_strength := cfg_strength ns; target_rms := target_rms ns;
     cross_fade_duration := cross_fade_duration ns;
     sway_sampling_coef := sway_sampling_coef ns; remove_silence := remove_silence ns |}.
Definition set_speed v ns :=
  {| model := model ns; ref_audio := ref_audio ns; ref_text := ref_text ns; gen_text := gen_text ns;
     speed := v; vocoder_name := vocoder_name ns; vocab_file := vocab_file ns;
     ckpt_file := ckpt_file ns; output_file := output_file ns; output_dir := output_dir ns;
     nfe_step := nfe_step ns; cfg_strength := cfg_strength ns; target_rms := target_rms ns;
     cross_fade_duration := cross_fade_duration ns;
     sway_sampling_coef := sway_sampling_coef ns; remove_silence := remove_silence ns |}.
Definition set_vocoder_name v ns :=
  {| model := model ns; ref_audio := ref_audio ns; ref_text := ref_text ns; gen_text := gen_text ns;
     speed := speed ns; vocoder_name := v; vocab_file := vocab_file ns;
     ckpt_file := ckpt_file ns; output_file := output_file ns; output_dir := output_dir ns;
     nfe_step := nfe_step ns; cfg_strength := cfg_strength ns; target_rms := target_rms ns;
     cross_fade_duration := cross_fade_duration ns;
     sway_sampling_coef := sway_sampling_coef ns; remove_silence := remove_silence ns |}.
Definition set_vocab_file v ns :=
  {| model := model ns; ref_audio := ref_audio ns; ref_text := ref_text ns; gen_text := gen_text ns;
     speed := speed ns; vocoder_name := vocoder_name ns; vocab_file := v;
     ckpt_file := ckpt_file ns; output_file := output_file ns; output_dir := output_dir ns;
     nfe_step := nfe_step ns; cfg_strength := cfg_strength ns; target_rms := target_rms ns;
     cross_fade_duration := cross_fade_duration ns;
     sway_sampling_coef := sway_sampling_coef ns; remove_silence := remove_silence ns |}.
Definition set_ckpt_file v ns :=
  {| model := model ns; ref_audio := ref_audio ns; ref_text := ref_text ns; gen_text := gen_text ns;
     speed := speed ns; vocoder_name := vocoder_name ns; vocab_file := vocab_file ns;
     ckpt_file := v; output_file := output_file ns; output_dir := output_dir ns;
     nfe_step := nfe_step ns; cfg_strength := cfg_strength ns; target_rms := target_rms ns;
     cross_fade_duration := cross_fade_duration ns;
     sway_sampling_coef := sway_sampling_coef ns; remove_silence := remove_silence ns |}.
Definition set_output_file v ns :=
  {| model := model ns; ref_audio := ref_audio ns; ref_text := ref_text ns; gen_text := gen_text ns;
     speed := speed ns; vocoder_name := vocoder_name ns; vocab_file := vocab_file ns;
     ckpt_file := ckpt_file ns; output_file := v; output_dir := output_dir ns;
     nfe_step := nfe_step ns; cfg_strength := cfg_strength ns; target_rms := target_rms ns;
     cross_fade_duration := cross_fade_duration ns;
     sway_sampling_coef := sway_sampling_coef ns; remove_silence := remove_silence ns |}.
Definition set_output_dir v ns :=
  {| model := model ns; ref_audio := ref_audio ns; ref_text := ref_text ns; gen_text := gen_text ns;
     speed := speed ns; vocoder_name := vocoder_name ns; vocab_file := vocab_file ns;
     ckpt_file := ckpt_file ns; output_file := output_file ns; output_dir := v;
     nfe_step := nfe_step ns; cfg_strength := cfg_strength ns; target_rms := target_rms ns;
     cross_fade_duration := cross_fade_duration ns;
     sway_sampling_coef := sway_sampling_coef ns; remove_silence := remove_silence ns |}.
Definition set_nfe_step v ns :=
  {| model := model ns; ref_audio := ref_audio ns; ref_text := ref_text ns; gen_text := gen_text ns;
     speed := speed ns; vocoder_name := vocoder_name ns; vocab_file := vocab_file ns;
     ckpt_file := ckpt_file ns; output_file := output_file ns; output_dir := output_dir ns;
     nfe_step := v; cfg_strength := cfg_strength ns; target_rms := target_rms ns;
     cross_fade_duration := cross_fade_duration ns;
     sway_sampling_coef := sway_sampling_coef ns; remove_silence := remove_silence ns |}.
Definition set_cfg_strength v ns :=
  {| model := model ns; ref_audio := ref_audio ns; ref_text := ref_text ns; gen_text := gen_text ns;
     speed := speed ns; vocoder_name := vocoder_name ns; vocab_file := vocab_file ns;
     ckpt_file := ckpt_file ns; output_file := output_file ns; output_dir := output_dir ns;
     nfe_step := nfe_step ns; cfg_strength := v; target_rms := target_rms ns;
     cross_fade_duration := cross_fade_duration ns;
     sway_sampling_coef := sway_sampling_coef ns; remove_silence := remove_silence ns |}.
Definition set_target_rms v ns :=
  {| model := model ns; ref_audio := ref_audio ns; ref_text := ref_text ns; gen_text := gen_text ns;
     speed := speed ns; vocoder_name := vocoder_name ns; vocab_file := vocab_file ns;
     ckpt_file := ckpt_file ns; output_file := output_file ns; output_dir := output_dir ns;
     nfe_step := nfe_step ns; cfg_strength := cfg_strength ns; target_rms := v;
     cross_fade_duration := cross_fade_duration ns;
     sway_sampling_coef := sway_sampling_coef ns; remove_silence := remove_silence ns |}.
Definition set_cross_fade_duration v ns :=
  {| model := model ns; ref_audio := ref_audio ns; ref_text := ref_text ns; gen_text := gen_text ns;
     speed := speed ns; vocoder_name := vocoder_name ns; vocab_file := vocab_file ns;
     ckpt_file := ckpt_file ns; output_file := output_file ns; output_dir := output_dir ns;
     nfe_step := nfe_step ns; cfg_strength := cfg_strength ns; target_rms := target_rms ns;
     cross_fade_duration := v;
     sway_sampling_coef := sway_sampling_coef ns; remove_silence := remove_silence ns |}.
Definition set_sway_sampling_coef v ns :=
  {| model := model ns; ref_audio := ref_audio ns; ref_text := ref_text ns; gen_text := gen_text ns;
     speed := speed ns; vocoder_name := vocoder_name ns; vocab_file := vocab_file ns;
     ckpt_file := ckpt_file ns; output_file := output_file ns; output_dir := output_dir ns;
     nfe_step := nfe_step ns; cfg_strength := cfg_strength ns; target_rms := target_rms ns;
     cross_fade_duration := cross_fade_duration ns;
     sway_sampling_coef := v; remove_silence := remove_silence ns |}.
Definition set_remove_silence v ns :=
  {| model := model ns; ref_audio := ref_audio ns; ref_text := ref_text ns; gen_text := gen_text ns;
     speed := speed ns; vocoder_name := vocoder_name ns; vocab_file := vocab_file ns;
     ckpt_file := ckpt_file ns; output_file := output_file ns; output_dir := output_dir ns;
     nfe_step := nfe_step ns; cfg_strength := cfg_strength ns; target_rms := target_rms ns;
     cross_fade_duration := cross_fade_duration ns;
     sway_sampling_coef := sway_sampling_coef ns; remove_silence := v |}.

(** ** The parser of [main], lines 48 to 70 *)

(** The sixteen [add_argument] calls, in the order of the source. *)
Definition arguments : parser Namespace :=
  [ ("--model", store_str None set_model);
    ("--ref_audio", store_str None set_ref_audio);
    ("--ref_text", store_str None set_ref_text);
    ("--gen_text", store_str None set_gen_text);
    ("--speed", store_float set_speed);
    ("--vocoder_name", store_str (Some ["vocos"; "bigvgan"]) set_vocoder_name);
    ("--vocab_file", store_str None set_vocab_file);
    ("--ckpt_file", store_str None set_ckpt_file);
    ("--output_file", store_str None set_output_file);
    ("--output_dir", store_str None set_output_dir);
    ("--nfe_step", store_int set_nfe_step);
    ("--cfg_strength", store_float set_cfg_strength);
    ("--target_rms", store_float set_target_rms);
    ("--cross_fade_duration", store_float set_cross_fade_duration);
    ("--sway_sampling_coef", store_float set_sway_sampling_coef);
    ("--remove_silence", store_true set_remove_silence) ].

Definition parser : Argparse.parser Namespace := ArgumentParser arguments.

(** The [default=] of every argument; [store_true] defaults to [False]. *)
Definition defaults : Namespace :=
  {| model := value MODEL; ref_audio := value REF_AUDIO; ref_text := value REF_TEXT;
     gen_text := value GEN_TEXT; speed := value SPEED;
     vocoder_name := value VOCODER_NAME; vocab_file := value VOCAB_FILE;
     ckpt_file := value CKPT_FILE; output_file := value OUTPUT_FILE;
     output_dir := value OUTPUT_DIR; nfe_step := value DEFAULT_NFE_STEP;
     cfg_strength := value DEFAULT_CFG_STRENGTH;
     target_rms := value DEFAULT_TARGET_RMS;
     cross_fade_duration := value DEFAULT_CROSS_FADE_DURATION;
     sway_sampling_coef := value DEFAULT_SWAY_SAMPLING_COEF; remove_silence := false |}.


(** The argument string [s] names the option [flag], in full or
    abbreviated, with or without [=value]. *)
Definition names_option (flag s : string) : bool :=
  match parse_optional parser s with
  | Optional o _ _ => String.eqb o flag
  | _ => false
  end.

(** The option [flag] is passed on the command line [argv]. *)
Definition given (flag : string) (argv : list string) : bool :=
  existsb (names_option flag) argv.

(** ** The external library *)

Section Main.

(** Values of the external library (the vocoder, the model, its
    architecture description, audio buffers, the sample rate): the script
    only passes them on. *)
Context {PyObj : Type}.

Inductive model_class := DiT | UNetT.

(** [OmegaConf.load(path).model], of which the script reads [backbone]
    and [arch]. *)
Record model_config := { backbone : string; arch : PyObj }.

(** The arguments of the call of [infer_process], lines 123 to 137;
    [fix_duration] is always [None]. *)
Record infer_args := {
  i_ref_audio : PyObj;
  i_ref_text : PyObj;
  i_gen_text : stored string;
  i_model_obj : PyObj;
  i_vocoder : PyObj;
  i_mel_spec_type : stored string;
  i_target_rms : stored float;
  i_cross_fade_duration : stored float;
  i_nfe_step : stored Z;
  i_cfg_strength : stored float;
  i_sway_sampling_coef : stored float;
  i_speed : stored float
}.

(** What the script calls outside itself.  A call returns its value or
    raises.  [lib_files pkg rel] is
    [str(files(pkg).joinpath(rel))] together with the import of [files]. *)
Record library := {
  lib_load_vocoder : stored string -> exc + PyObj;
  lib_files : string -> string -> exc + string;
  lib_OmegaConf_load : string -> exc + model_config;
  lib_load_model :
    model_class -> PyObj -> stored string -> stored string -> stored string -> exc + PyObj;
  lib_preprocess_ref_audio_text : stored string -> stored string -> exc + (PyObj * PyObj);
  lib_infer_process : infer_args -> exc + (PyObj * PyObj * PyObj);
  lib_sf_write : PurePath -> PyObj -> PyObj -> exc + unit;
  lib_remove_silence_for_generated_wav : PurePath -> exc + unit
}.

(** ** Traces *)

(** The operations of a run that are visible from outside, each recorded
    when it starts. *)
Inductive event :=
  | ev_parse_args (argv : list string)
  | ev_mkdir (p : PurePath)
  | ev_print (s : string)
  | ev_load_vocoder (vocoder_name : stored string)
  | ev_files (package resource : string)
  | ev_exists (path : string)
  | ev_OmegaConf_load (path : string)
  | ev_load_model (model_cls : model_class) (model_arc : PyObj)
      (ckpt_path mel_spec_type vocab_file : stored string)
  | ev_preprocess_ref_audio_text (ref_audio ref_text : stored string)
  | ev_infer_process (a : infer_args)
  | ev_sf_write (file : PurePath) (data samplerate : PyObj)
  | ev_remove_silence (file : PurePath).

(** ** The monad of [main]

    A computation reads and updates the file system, appends to the
    trace, and returns a value or raises.  The file system changes only
    through the script's own [mkdir]; what the library reads and writes
    is part of its behaviour [library]. *)
Definition M (A : Type) : Type := fs -> (exc + A) * fs * list event.

Definition ret {A} (a : A) : M A := fun f => (inr a, f, []).

Definition raise {A} (e : exc) : M A := fun f => (inl e, f, []).

Definition bind {A B} (m : M A) (k : A -> M B) : M B :=
  fun f =>
    match m f with
    | (inl e, f1, t1) => (inl e, f1, t1)
    | (inr a, f1, t1) =>
        match k a f1 with
        | (r, f2, t2) => (r, f2, t1 ++ t2)
        end
    end.

(** [try: m except (classes): handler]. *)
Definition try_except {A} (m : M A) (classes : list exc_class) (handler : M A) : M A :=
  fun f =>
    match m f with
    | (inl e, f1, t1) =>
        if isinstance e classes then
          match handler f1 with
          | (r, f2, t2) => (r, f2, t1 ++ t2)
          end
        else (inl e, f1, t1)
    | (inr a, f1, t1) => (inr a, f1, t1)
    end.

(** An external call: the event, then the outcome. *)
Definition call {A} (ev : event) (outcome : exc + A) : M A :=
  fun f => (outcome, f, [ev]).

Definition print (s : string) : M unit := call (ev_print s) (inr tt).

(** [os.path.exists(path)]. *)
Definition exists_ (path : string) : M bool :=
  fun f => (inr (os_path_exists f path), f, [ev_exists path]).

(** [p.mkdir(parents=parents, exist_ok=exist_ok)]. *)
Definition Path_mkdir (p : PurePath) (parents exist_ok : bool) : M unit :=
  fun f =>
    match Pathlib.mkdir f p parents exist_ok with
    | inl (e, f') => (inl e, f', [ev_mkdir p])
    | inr f' => (inr tt, f', [ev_mkdir p])
    end.

(** [Path(x)] for an attribute of the namespace: [os.fspath] refuses a
    list. *)
Definition Path_of (x : stored string) : M PurePath :=
  match x with
  | value s => ret (Path s)
  | empty_list => raise (Exc TypeError "expected str, bytes or os.PathLike object, not list")
  end.

(** [p / x] for an attribute of the namespace: [__truediv__] returns
    [NotImplemented] for a list, and the operator raises. *)
Definition truediv_of (p : PurePath) (x : stored string) : M PurePath :=
  match x with
  | value s => ret (truediv p s)
  | empty_list =>
      raise (Exc TypeError "unsupported operand type(s) for /: 'PosixPath' and 'list'")
  end.

Notation "x <- m ;; k" := (bind m (fun x => k))
  (at level 20, m at level 99, k at level 200, only parsing).
Notation "' pat <- m ;; k" := (bind m (fun pat => k))
  (at level 20, pat pattern, m at level 99, k at level 200, only parsing).
Notation "m ;; k" := (bind m (fun _ => k))
  (at level 100, k at level 200, right associativity, only parsing).

Context (bi : builtins) (lib : library).

(** ** [main], lines 46 to 148 *)

(** Lines 84 to 93: the path of the model configuration. *)
Definition get_model_cfg_path (args : Namespace) : M string :=
  try_except
    (call (ev_files "f5_tts" ("configs/" +:+ format (model args) +:+ ".yaml"))
       (lib_files lib "f5_tts" ("configs/" +:+ format (model args) +:+ ".yaml")))
    [ImportError; FileNotFoundError]
    (found <- exists_ ("configs/" +:+ format (model args) +:+ ".yaml") ;;
     if found then ret ("configs/" +:+ format (model args) +:+ ".yaml")
     else raise (Exc FileNotFoundError
                   ("Could not find model config for " +:+ format (model args)))).

(** Lines 98 to 105: the model class named by the configuration. *)
Definition get_model_cls (model_cfg : model_config) : M model_class :=
  if String.eqb (backbone model_cfg) "DiT" then ret DiT
  else if String.eqb (backbone model_cfg) "UNetT" then ret UNetT
  else raise (Exc ValueError ("Unknown model backbone: " +:+ backbone model_cfg)).

(** Lines 75 to 148, after the arguments are parsed. *)
Definition run (args : Namespace) : M unit :=
  output_dir <- Path_of (output_dir args) ;;
  Path_mkdir output_dir true true ;;
  wave_path <- truediv_of output_dir (output_file args) ;;
  print ("Loading vocoder: " +:+ format (vocoder_name args)) ;;
  vocoder <- call (ev_load_vocoder (vocoder_name args))
               (lib_load_vocoder lib (vocoder_name args)) ;;
  model_cfg_path <- get_model_cfg_path args ;;
  model_cfg <- call (ev_OmegaConf_load model_cfg_path)
                 (lib_OmegaConf_load lib model_cfg_path) ;;
  model_cls <- get_model_cls model_cfg ;;
  print ("Loading model from " +:+ format (ckpt_file args)) ;;
  ema_model <- call (ev_load_model model_cls (arch model_cfg) (ckpt_file args)
                       (vocoder_name args) (vocab_file args))
                 (lib_load_model lib model_cls (arch model_cfg) (ckpt_file args)
                    (vocoder_name args) (vocab_file args)) ;;
  print "Preprocessing reference audio and text" ;;
  ' (ref_audio', ref_text') <-
      call (ev_preprocess_ref_audio_text (ref_audio args) (ref_text args))
        (lib_preprocess_ref_audio_text lib (ref_audio args) (ref_text args)) ;;
  print ("Generating speech for: " +:+ format (gen_text args)) ;;
  let a :=
    {| i_ref_audio := ref_audio'; i_ref_text := ref_text'; i_gen_text := gen_text args;
       i_model_obj := ema_model; i_vocoder := vocoder;
       i_mel_spec_type := vocoder_name args; i_target_rms := target_rms args;
       i_cross_fade_duration := cross_fade_duration args; i_nfe_step := nfe_step args;
       i_cfg_strength := cfg_strength args;
       i_sway_sampling_coef := sway_sampling_coef args; i_speed := speed args |} in
  ' (audio_segment, final_sample_rate, spectrogram) <-
      call (ev_infer_process a) (lib_infer_process lib a) ;;
  print ("Saving audio to " +:+ str wave_path) ;;
  call (ev_sf_write wave_path audio_segment final_sample_rate)
    (lib_sf_write lib wave_path audio_segment final_sample_rate) ;;
  (if remove_silence args then
     print "Removing silence from generated audio" ;;
     call (ev_remove_silence wave_path) (lib_remove_silence_for_generated_wav lib wave_path)
   else ret tt) ;;
  print ("Done! Output saved to " +:+ str wave_path).

(** [main()] on the command line [argv] (that is, [sys.argv[1:]]). *)
Definition main (argv : list string) : M unit :=
  args <- call (ev_parse_args argv) (parse_args bi parser defaults argv) ;;
  run args.

(** ** Reading a run *)

Definition result {A} (r : (exc + A) * fs * list event) : exc + A := r.1.1.
Definition final_fs {A} (r : (exc + A) * fs * list event) : fs := r.1.2.
Definition trace {A} (r : (exc + A) * fs * list event) : list event := r.2.

(** The operations that the specification lists as the architecture. *)
Inductive stage :=
  | parse_config
  | resolve_model_config_path
  | load_vocoder
  | load_model
  | preprocess_reference
  | run_inference
  | write_audio
  | post_process.

#[global] Instance stage_eq_dec : EqDecision stage.
Proof. solve_decision. Defined.

(** The stage an event belongs to; creating the output directory,
    printing and loading the configuration are not among the listed
    stages. *)
Definition stage_of (e : event) : option stage :=
  match e with
  | ev_parse_args _ => Some parse_config
  | ev_files _ _ | ev_exists _ => Some resolve_model_config_path
  | ev_load_vocoder _ => Some load_vocoder
  | ev_load_model _ _ _ _ _ => Some load_model
  | ev_preprocess_ref_audio_text _ _ => Some preprocess_reference
  | ev_infer_process _ => Some run_inference
  | ev_sf_write _ _ _ => Some write_audio
  | ev_remove_silence _ => Some post_process
  | ev_mkdir _ | ev_print _ | ev_OmegaConf_load _ => None
  end.

(** Consecutive events of one stage count once. *)
Fixpoint squash (l : list stage) : list stage :=
  match l with
  | a :: (b :: _) as rest => if bool_decide (a = b) then squash rest else a :: squash rest
  | _ => l
  end.

Definition stages (t : list event) : list stage := squash (omap stage_of t).

(** The sequence as the specification gives it. *)
Definition spec_sequence : list stage :=
  [parse_config; resolve_model_config_path; load_vocoder; load_model;
   preprocess_reference; run_inference; write_audio].

(** The sequence of the source. *)
Definition code_sequence : list stage :=
  [parse_config; load_vocoder; resolve_model_config_path; load_model;
   preprocess_reference; run_inference; write_audio].

Fixpoint is_prefix (l m : list stage) : bool :=
  match l, m with
  | [], _ => true
  | a :: l', b :: m' => bool_decide (a = b) && is_prefix l' m'
  | _ :: _, [] => false
  end.

(** A run follows [seq]: its stages are an initial part of [seq],
    possibly with the optional post-processing, and all of [seq] when it
    returns. *)
Definition follows (seq : list stage) (r : (exc + unit) * fs * list event) : bool :=
  match result r with
  | inr _ =>
      bool_decide (stages (trace r) = seq) ||
      bool_decide (stages (trace r) = seq ++ [post_process])
  | inl _ => is_prefix (stages (trace r)) (seq ++ [post_process])
  end.

End Main.

Arguments library : clear implicits.
Arguments event : clear implicits.
Arguments model_config : clear implicits.
Arguments infer_args : clear implicits.
Arguments M : clear implicits.

End TtsInfer.

(* ===================================================================== *)
(** * Terms in which the properties are stated *)
(* ===================================================================== *)

Module Terms.
Import Py Posix Pathlib Argparse TtsInfer.

(** ** The command line *)

(** The option strings of the parser: [-h], [--help] and the sixteen of
    the script. *)
Definition option_strings : list string := map fst parser.



(** The text of an argument string up to its first [=], and the text
    after it. *)
Definition option_prefix (s : string) : string :=
  match PyStr.split_once "=" s with
  | Some (l, _) => l
  | None => s
  end.

Definition explicit_arg (s : string) : option string :=
  match PyStr.split_once "=" s with
  | Some (_, r) => Some r
  | None => None
  end.

(** ** The file system *)


(** ** Calls *)

Section Calls.
Context {PyObj : Type}.





End Calls.


End Terms.

(* ===================================================================== *)
(** * Sample worlds *)
(* ===================================================================== *)

Module Sample.
Import Py Posix Pathlib Argparse TtsInfer.

(** Conversions that accept two literals. *)
Definition bi : builtins :=
  {| py_float := fun s => if String.eqb s "1.5" then Some 1.5%float else None;
     py_int := fun s => if String.eqb s "16" then Some 16%Z else None |}.

(** A library in which every call returns; the configuration names the
    backbone [DiT]. *)
Definition lib : library unit :=
  {| lib_load_vocoder := fun _ => inr tt;
     lib_files := fun _ rel => inr ("/site-packages/f5_tts/" +:+ rel);
     lib_OmegaConf_load := fun _ => inr {| backbone := "DiT"; arch := tt |};
     lib_load_model := fun _ _ _ _ _ => inr tt;
     lib_preprocess_ref_audio_text := fun _ _ => inr (tt, tt);
     lib_infer_process := fun _ => inr (tt, tt, tt);
     lib_sf_write := fun _ _ _ => inr tt;
     lib_remove_silence_for_generated_wav := fun _ => inr tt |}.

(** The same library without the packaged configurations. *)
Definition lib_no_package : library unit :=
  {| lib_load_vocoder := fun _ => inr tt;
     lib_files := fun _ _ => inl (Exc ModuleNotFoundError "No module named 'f5_tts'");
     lib_OmegaConf_load := fun _ => inr {| backbone := "DiT"; arch := tt |};
     lib_load_model := fun _ _ _ _ _ => inr tt;
     lib_preprocess_ref_audio_text := fun _ _ => inr (tt, tt);
     lib_infer_process := fun _ => inr (tt, tt, tt);
     lib_sf_write := fun _ _ _ => inr tt;
     lib_remove_silence_for_generated_wav := fun _ => inr tt |}.

(** The same library with a configuration of another backbone. *)
Definition lib_mmdit : library unit :=
  {| lib_load_vocoder := fun _ => inr tt;
     lib_files := fun _ rel => inr ("/site-packages/f5_tts/" +:+ rel);
     lib_OmegaConf_load := fun _ => inr {| backbone := "MMDiT"; arch := tt |};
     lib_load_model := fun _ _ _ _ _ => inr tt;
     lib_preprocess_ref_audio_text := fun _ _ => inr (tt, tt);
     lib_infer_process := fun _ => inr (tt, tt, tt);
     lib_sf_write := fun _ _ _ => inr tt;
     lib_remove_silence_for_generated_wav := fun _ => inr tt |}.

(** A home directory as the working directory, without [outputs]. *)
Definition home : fs :=
  {| nodes := <[ ["home"; "user"] := Dir ]> (<[ ["home"] := Dir ]> ∅);
     cwd := ["home"; "user"] |}.

(** The same with [outputs] in place. *)
Definition home_with_outputs : fs :=
  {| nodes := <[ ["home"; "user"; "outputs"] := Dir ]> (nodes home);
     cwd := ["home"; "user"] |}.




End Sample.

(* ===================================================================== *)
(** * Facts about the file system and [Path.mkdir] *)
(* ===================================================================== *)

Module PosixFacts.
Import Py Posix Pathlib.












































End PosixFacts.

(* ===================================================================== *)
(** * Facts about the parser *)
(* ===================================================================== *)

Module ArgparseFacts.
Import Py Argparse.

Section Generic.
Context {N : Type} (bi : builtins) (p : parser N).

Lemma lookup_option_In s a : lookup_option p s = Some a -> In (s, a) p.
Proof.
  induction p as [|[o b] q IH]; simpl; [discriminate|].
  destruct (String.eqb s o) eqn:E.
  - apply String.eqb_eq in E as ->. intros [= ->]. now left.
  - intros H. right. auto.
Qed.

Lemma get_option_tuples_In s o a e :
  (o, a, e) ∈ get_option_tuples p s -> In (o, a) p.
Proof.
  unfold get_option_tuples.
  destruct (PyStr.startswith s "--").
  - destruct (PyStr.split_once "=" s) as [[l r]|];
      intros Hin; apply list_elem_of_omap in Hin as ([o3 a3] & Hin & Heq);
      apply list_elem_of_In in Hin;
      destruct (PyStr.startswith o3 _); try discriminate;
      injection Heq as <- <- <-; exact Hin.
  - intros Hin; apply list_elem_of_omap in Hin as ([o3 a3] & Hin & Heq).
    apply list_elem_of_In in Hin.
    destruct (String.eqb o3 _); [injection Heq as <- <- <-; exact Hin|].
    destruct (PyStr.startswith o3 s); [injection Heq as <- <- <-; exact Hin|discriminate].
Qed.

(** An argument string that is read as an option names a registered
    option, whether in full or abbreviated. *)
Lemma parse_optional_In s o a e :
  parse_optional p s = Optional o a e -> In (o, a) p.
Proof.
  unfold parse_optional. destruct s as [|c s']; [discriminate|].
  destruct (negb (Ascii.eqb c "-")); [discriminate|].
  destruct (lookup_option p (String c s')) as [a0|] eqn:Hl.
  { intros [= <- <- <-]. apply lookup_option_In, Hl. }
  destruct (String.length (String c s') =? 1)%nat; [discriminate|].
  assert (Hab :
    match get_option_tuples p (String c s') with
    | _ :: _ :: _ => Ambiguous
    | [(o0, a0, e0)] => Optional o0 a0 e0
    | [] => if negative_number (String c s') then Positional
            else if PyStr.contains " " (String c s') then Positional else Unrecognized
    end = Optional o a e -> In (o, a) p).
  { destruct (get_option_tuples p (String c s')) as [|[[o2 a2] e2] [|? ?]] eqn:Hg;
      try discriminate.
    - destruct (negative_number _); [discriminate|].
      destruct (PyStr.contains _ _); discriminate.
    - intros [= <- <- <-]. apply (get_option_tuples_In (String c s') o2 a2 e2).
      rewrite Hg. left. }
  destruct (PyStr.split_once "=" (String c s')) as [[o1 e1]|] eqn:Hs; [|exact Hab].
  destruct (lookup_option p o1) as [a1|] eqn:Hl1; [|exact Hab].
  intros [= <- <- <-]. apply lookup_option_In, Hl1.
Qed.

Lemma list_ind_two {A} (P : list A -> Prop) :
  P [] -> (forall x l, P l -> P (tl l) -> P (x :: l)) -> forall l, P l.
Proof.
  intros Hnil Hcons l.
  enough (P l /\ P (tl l)) by tauto.
  induction l as [|x l [IH1 IH2]]; simpl; auto.
Qed.

Lemma in_tl {A} (x : A) (l : list A) : In x (tl l) -> In x l.
Proof. destruct l; simpl; auto. Qed.

(** The parsing function reads the argument strings round by round. *)
Lemma parse_known_args_cons s rest ns ns' :
  parse_known_args bi p (s :: rest) ns = Some ns' <->
  exists o a arg rest' ns1,
    consume_optional p (s :: rest) o a arg rest' /\
    take_action bi a arg ns = Some ns1 /\
    parse_known_args bi p rest' ns1 = Some ns'.
Proof.
  split.
  - simpl. destruct (String.eqb s "--") eqn:Hdd; [discriminate|].
    apply String.eqb_neq in Hdd.
    destruct (parse_optional p s) as [|o a [e|]| |] eqn:Hpo; try discriminate.
    + destruct (takes_value a) eqn:Htv; [|discriminate].
      destruct (take_action bi a (Some e) ns) as [ns1|] eqn:Hta; [|discriminate].
      intros H. exists o, a, (Some e), rest, ns1. split; [|auto].
      now apply consume_explicit.
    + destruct (takes_value a) eqn:Htv.
      * destruct rest as [|v rest']; [discriminate|].
        destruct (is_argument p v) eqn:Hv; [|discriminate].
        destruct (take_action bi a (Some v) ns) as [ns1|] eqn:Hta; [|discriminate].
        intros H. exists o, a, (Some v), rest', ns1. split; [|auto].
        now apply consume_next.
      * destruct (take_action bi a None ns) as [ns1|] eqn:Hta; [|discriminate].
        intros H. exists o, a, None, rest, ns1. split; [|auto].
        now apply consume_flag.
  - intros (o & a & arg & rest' & ns1 & Hc & Hta & Hp).
    inversion Hc; subst; cbn [parse_known_args];
      match goal with H : s <> "--" |- _ => apply String.eqb_neq in H; rewrite H end;
      match goal with H : parse_optional _ _ = _ |- _ => rewrite H end;
      match goal with H : takes_value _ = _ |- _ => rewrite H end;
      rewrite ?Hta; try assumption.
    match goal with H : is_argument _ _ = _ |- _ => rewrite H end.
    assumption.
Qed.

(** What a round leaves is the tail of the argument strings or the tail
    of that. *)
Lemma consume_optional_rest s rest o a arg rest' :
  consume_optional p (s :: rest) o a arg rest' -> rest' = rest \/ rest' = tl rest.
Proof. inversion 1; subst; auto. Qed.

Lemma consume_optional_head s rest o a arg rest' :
  consume_optional p (s :: rest) o a arg rest' ->
  exists e, parse_optional p s = Optional o a e.
Proof. inversion 1; subst; eauto. Qed.

(** A property of the namespace that every action keeps holds of the
    parsed namespace. *)
Lemma parse_known_args_inv (P : N -> Prop) argv :
  (forall s o a e arg ns ns',
      In s argv -> parse_optional p s = Optional o a e ->
      take_action bi a arg ns = Some ns' -> P ns -> P ns') ->
  forall ns ns', P ns -> parse_known_args bi p argv ns = Some ns' -> P ns'.
Proof.
  induction argv as [|s rest IH1 IH2] using list_ind_two; intros Hstep ns ns' HP.
  - simpl. now intros [= <-].
  - intros (o & a & arg & rest' & ns1 & Hc & Hta & Hp)%parse_known_args_cons.
    destruct (consume_optional_head _ _ _ _ _ _ Hc) as [e He].
    assert (HP1 : P ns1) by (eapply (Hstep s); eauto; now left).
    destruct (consume_optional_rest _ _ _ _ _ _ Hc) as [-> | ->].
    + eapply IH1; eauto. intros; eapply Hstep; eauto. now right.
    + eapply IH2; eauto. intros; eapply Hstep; eauto. right. now apply in_tl.
Qed.

(** Every argument string that reads as an option is taken as one: its
    action runs at some round. *)
Lemma parse_known_args_taken argv : forall ns ns' s o a e,
  parse_known_args bi p argv ns = Some ns' ->
  In s argv -> parse_optional p s = Optional o a e ->
  exists arg ns1 ns2 rest,
    take_action bi a arg ns1 = Some ns2 /\
    parse_known_args bi p rest ns2 = Some ns' /\ incl rest argv.
Proof.
  induction argv as [|s0 rest IH1 IH2] using list_ind_two;
    intros ns ns' s o a e Hp Hin Hpo; [contradiction|].
  apply parse_known_args_cons in Hp as (o0 & a0 & arg & rest' & ns1 & Hc & Hta & Hp).
  destruct Hin as [-> | Hin].
  - destruct (consume_optional_head _ _ _ _ _ _ Hc) as [e0 He0].
    rewrite Hpo in He0. injection He0 as <- <- <-.
    exists arg, ns, ns1, rest'. repeat split; auto.
    destruct (consume_optional_rest _ _ _ _ _ _ Hc) as [-> | ->];
      intros x Hx; right; auto using in_tl.
  - inversion Hc; subst.
    + destruct (IH1 _ _ _ _ _ _ Hp Hin Hpo) as (arg' & n1 & n2 & r & ? & ? & Hincl).
      exists arg', n1, n2, r. repeat split; auto. intros x Hx. right. auto.
    + destruct Hin as [-> | Hin].
      * exfalso.
        match goal with H : is_argument _ _ = true |- _ =>
          unfold is_argument in H; rewrite Hpo in H;
          apply andb_true_iff in H as [_ H]; discriminate end.
      * destruct (IH2 _ _ _ _ _ _ Hp Hin Hpo) as (arg' & n1 & n2 & r & ? & ? & Hincl).
        exists arg', n1, n2, r. repeat split; auto.
        intros x Hx. right. right. auto.
    + destruct (IH1 _ _ _ _ _ _ Hp Hin Hpo) as (arg' & n1 & n2 & r & ? & ? & Hincl).
      exists arg', n1, n2, r. repeat split; auto. intros x Hx. right. auto.
Qed.


End Generic.

End ArgparseFacts.

(* ===================================================================== *)
(** * Properties of the command line *)
(* ===================================================================== *)

Module ParserFacts.
Import Py Argparse ArgparseFacts TtsInfer.

(** Splits [In (o, a) parser] into the eighteen registered options. *)
Ltac option_cases H :=
  unfold parser, ArgumentParser, arguments in H; simpl in H;
  repeat (destruct H as [H | H]; [injection H as <- <- |]); [.. | contradiction].

(** Runs the action of [H : take_action bi a arg ns = Some ns']. *)
Ltac run_action H :=
  simpl in H;
  repeat match type of H with
         | context [match ?x with _ => _ end] => destruct x eqn:?; try discriminate
         end;
  try discriminate; try (injection H as <-).

(** An attribute changes only through its own option. *)
Lemma omitted_keeps {A} (proj : Namespace -> A) (flag : string) bi :
  (forall o a arg ns ns',
      In (o, a) parser -> o <> flag ->
      take_action bi a arg ns = Some ns' -> proj ns' = proj ns) ->
  forall argv ns ns',
    given flag argv = false ->
    parse_known_args bi parser argv ns = Some ns' -> proj ns' = proj ns.
Proof.
  intros Hset argv ns ns' Hg Hp.
  apply (parse_known_args_inv bi parser (fun n => proj n = proj ns) argv) with (ns := ns);
    [|reflexivity|exact Hp].
  intros s o a e arg n n' Hin Hpo Hta <-.
  apply (Hset o a arg); [apply (parse_optional_In _ _ _ _ _ Hpo)| |exact Hta].
  intros ->. unfold given in Hg.
  assert (Hn : names_option flag s = true)
    by (unfold names_option; rewrite Hpo; apply String.eqb_refl).
  assert (existsb (names_option flag) argv = true)
    by (apply existsb_exists; eauto).
  congruence.
Qed.

Ltac keeps :=
  let Hin := fresh "Hin" in
  let Hne := fresh "Hne" in
  let Hta := fresh "Hta" in
  intros ? ? ? ? ? Hin Hne Hta; option_cases Hin;
  try (now contradiction Hne); run_action Hta; reflexivity.

Lemma parse_args_inr bi argv ns :
  parse_args bi parser defaults argv = inr ns <->
  parse_known_args bi parser argv defaults = Some ns.
Proof.
  unfold parse_args. destruct (parse_known_args bi parser argv defaults).
  - split; intros [= ->]; reflexivity.
  - split; discriminate.
Qed.

(** Once set, [remove_silence] stays set. *)
Lemma remove_silence_stays bi argv ns ns' :
  remove_silence ns = true ->
  parse_known_args bi parser argv ns = Some ns' -> remove_silence ns' = true.
Proof.
  apply (parse_known_args_inv bi parser (fun n => remove_silence n = true) argv).
  intros s o a e arg n n' _ Hin%parse_optional_In Hta HP.
  option_cases Hin; run_action Hta; simpl; auto.
Qed.

(** The parsed [remove_silence] tells whether the flag was passed. *)
Lemma remove_silence_given bi argv ns :
  parse_known_args bi parser argv defaults = Some ns ->
  remove_silence ns = given "--remove_silence" argv.
Proof.
  intros Hp. destruct (given "--remove_silence" argv) eqn:Hg.
  - unfold given in Hg. apply existsb_exists in Hg as (s & Hin & Hn).
    unfold names_option in Hn.
    destruct (parse_optional parser s) as [|o a e| |] eqn:Hpo; try discriminate.
    apply String.eqb_eq in Hn.
    destruct (parse_known_args_taken bi parser argv _ _ _ _ _ _ Hp Hin Hpo)
      as (arg & n1 & n2 & rest & Hta & Hrest & _).
    apply (remove_silence_stays bi rest n2); [|exact Hrest].
    apply parse_optional_In in Hpo.
    option_cases Hpo; try discriminate Hn; run_action Hta; reflexivity.
  - apply (omitted_keeps remove_silence "--remove_silence" bi) with (2 := Hg) (3 := Hp).
    keeps.
Qed.

(** C7. When a flag is omitted, [parse_args] supplies the module-level
    default: without any argument string the namespace is [defaults], and
    for every command line that parses, each of the eleven attributes
    whose option is not passed has the value of its constant ([model]
    "F5TTS_Base", [vocoder_name] "vocos", [speed] 1.0, [nfe_step] 32,
    [cfg_strength] 2.0, [target_rms] 0.1, [cross_fade_duration] 0.15,
    [sway_sampling_coef] -1.0, [output_dir] "outputs", [vocab_file]
    "model/vocab.txt", [ckpt_file] "model/model_500000.pt"). *)
Theorem defaults_when_omitted (bi : builtins) (argv : list string) (ns : Namespace) :
  parse_args bi parser defaults argv = inr ns ->
  parse_args bi parser defaults [] = inr defaults /\
  (given "--model" argv = false -> model ns = value "F5TTS_Base") /\
  (given "--vocoder_name" argv = false -> vocoder_name ns = value "vocos") /\
  (given "--speed" argv = false -> speed ns = value 1.0%float) /\
  (given "--nfe_step" argv = false -> nfe_step ns = value 32%Z) /\
  (given "--cfg_strength" argv = false -> cfg_strength ns = value 2.0%float) /\
  (given "--target_rms" argv = false -> target_rms ns = value 0.1%float) /\
  (given "--cross_fade_duration" argv = false ->
     cross_fade_duration ns = value 0.15%float) /\
  (given "--sway_sampling_coef" argv = false ->
     sway_sampling_coef ns = value (-1.0)%float) /\
  (given "--output_dir" argv = false -> output_dir ns = value "outputs") /\
  (given "--vocab_file" argv = false -> vocab_file ns = value "model/vocab.txt") /\
  (given "--ckpt_file" argv = false -> ckpt_file ns = value "model/model_500000.pt").
Proof.
  intros Hp%parse_args_inr.
  split; [reflexivity|].
  repeat split; intros Hg.
  - apply (omitted_keeps model "--model" bi) with (2 := Hg) (3 := Hp). keeps.
  - apply (omitted_keeps vocoder_name "--vocoder_name" bi) with (2 := Hg) (3 := Hp). keeps.
  - apply (omitted_keeps speed "--speed" bi) with (2 := Hg) (3 := Hp). keeps.
  - apply (omitted_keeps nfe_step "--nfe_step" bi) with (2 := Hg) (3 := Hp). keeps.
  - apply (omitted_keeps cfg_strength "--cfg_strength" bi) with (2 := Hg) (3 := Hp). keeps.
  - apply (omitted_keeps target_rms "--target_rms" bi) with (2 := Hg) (3 := Hp). keeps.
  - apply (omitted_keeps cross_fade_duration "--cross_fade_duration" bi)
      with (2 := Hg) (3 := Hp). keeps.
  - apply (omitted_keeps sway_sampling_coef "--sway_sampling_coef" bi)
      with (2 := Hg) (3 := Hp). keeps.
  - apply (omitted_keeps output_dir "--output_dir" bi) with (2 := Hg) (3 := Hp). keeps.
  - apply (omitted_keeps vocab_file "--vocab_file" bi) with (2 := Hg) (3 := Hp). keeps.
  - apply (omitted_keeps ckpt_file "--ckpt_file" bi) with (2 := Hg) (3 := Hp). keeps.
Qed.






End ParserFacts.

(* ===================================================================== *)
(** * Properties of a run *)
(* ===================================================================== *)

Module RunFacts.
Import Py Posix Pathlib Argparse TtsInfer PosixFacts ParserFacts.

(** Case analysis on the next outcome that decides how a run goes on:
    the result of an external call, of [mkdir], of a test.  The goal is
    [r = e -> G] for the expression [e] of the run; the outcome is the
    scrutinee at the head of [e]. *)
Ltac head_scrutinee t :=
  lazymatch t with
  | match ?x with inl _ => _ | inr _ => _ end => head_scrutinee x
  | match ?x with (_, _) => _ end => head_scrutinee x
  | if ?b then _ else _ => head_scrutinee b
  | (if ?b then _ else _) _ => head_scrutinee b
  | (match ?x with (_, _) => _ end) _ => head_scrutinee x
  | match ?x with value _ => _ | empty_list => _ end => head_scrutinee x
  | (match ?x with value _ => _ | empty_list => _ end) _ => head_scrutinee x
  | _ => t
  end.

Ltac run_step :=
  lazymatch goal with
  | |- _ = ?e -> _ =>
      let x := head_scrutinee e in
      lazymatch x with
      | (_, _) => fail
      | _ => first [is_var x; destruct x | destruct x eqn:?]; cbv beta iota
      end
  end.

Ltac run_cases :=
  cbv beta iota zeta delta
    [main run get_model_cfg_path get_model_cls try_except bind call print
     exists_ Path_mkdir Path_of truediv_of ret raise];
  repeat run_step.

(** Reads the components of a run that is a concrete triple. *)
Ltac read_run := cbn [result final_fs trace fst snd app] in *.

(** Splits [H : In e t] for a trace [t] whose events are listed. *)
Ltac in_cases H :=
  cbn [In] in H;
  repeat (destruct H as [H | H]; [try discriminate H|]); [.. | contradiction H].

(** All the ways [run lib args f] can go, one goal each. *)
Ltac on_run lib args f :=
  let r := fresh "r" in
  let Hr := fresh "Hr" in
  read_run; remember (run lib args f) as r eqn:Hr in *;
  revert Hr; run_cases; intros ->; read_run;
  repeat match goal with u : unit |- _ => destruct u end.

Lemma app_cons_here {A} (x : A) (t : list A) : x :: t = [] ++ x :: t.
Proof. reflexivity. Qed.

Lemma app_cons_later {A} (e x : A) (l t1 t2 : list A) :
  l = t1 ++ x :: t2 -> e :: l = (e :: t1) ++ x :: t2.
Proof. intros ->. reflexivity. Qed.

(** Finds the place of an event in a listed trace. *)
Ltac find_split := repeat first [apply app_cons_here | apply app_cons_later].

Section Run.
Context {PyObj : Type} (bi : builtins).

(** With the namespace in hand, [main] is [run] after the parsing
    event. *)
Lemma main_parsed (lib : library PyObj) argv args f :
  parse_args bi parser defaults argv = inr args ->
  main bi lib argv f =
  (result (run lib args f), final_fs (run lib args f),
   ev_parse_args argv :: trace (run lib args f)).
Proof.
  intros H. unfold main, bind, call. rewrite H.
  destruct (run lib args f) as [[r f'] t]. reflexivity.
Qed.

(** C1 (as the code has it). Every run of [main] goes through the
    stages in the order of the source: the arguments are parsed, the
    vocoder is loaded, the path of the model configuration is resolved,
    the model is loaded, the reference audio and text are preprocessed,
    inference runs, the audio is written, and post-processing may follow.
    A run that raises stops inside this sequence. *)
Theorem main_follows_code_sequence (lib : library PyObj) (argv : list string) (f : fs) :
  follows code_sequence (main bi lib argv f) = true.
Proof.
  remember (main bi lib argv f) as r eqn:Hr. revert Hr.
  run_cases; intros ->; reflexivity.
Qed.

(** C10. One run uses a single vocoder name.  Every call that loads a
    vocoder gets the [vocoder_name] of the namespace; every call that
    loads the model gets it as [mel_spec_type], after the vocoder was
    loaded for it; every inference call gets it as [mel_spec_type],
    together with the vocoder and the model that were loaded for it.  The
    calls do happen: the vocoder is loaded as soon as the output directory
    is in place, and a run that returns has made all three calls. *)
Theorem vocoder_name_consistent (lib : library PyObj) (argv : list string) (f : fs)
    (args : Namespace) :
  parse_args bi parser defaults argv = inr args ->
  let r := main bi lib argv f in
  (forall v, In (ev_load_vocoder v) (trace r) -> v = vocoder_name args) /\
  (forall cls arc ckpt mel vocab,
     In (ev_load_model cls arc ckpt mel vocab) (trace r) ->
     mel = vocoder_name args /\ In (ev_load_vocoder (vocoder_name args)) (trace r)) /\
  (forall a, In (ev_infer_process a) (trace r) ->
     i_mel_spec_type a = vocoder_name args /\
     lib_load_vocoder lib (vocoder_name args) = inr (i_vocoder a) /\
     exists cls arc ckpt vocab,
       In (ev_load_model cls arc ckpt (vocoder_name args) vocab) (trace r) /\
       lib_load_model lib cls arc ckpt (vocoder_name args) vocab = inr (i_model_obj a)) /\
  (result r = inr tt ->
     In (ev_load_vocoder (vocoder_name args)) (trace r) /\
     (exists cls arc ckpt vocab,
        In (ev_load_model cls arc ckpt (vocoder_name args) vocab) (trace r)) /\
     exists a, In (ev_infer_process a) (trace r) /\ i_mel_spec_type a = vocoder_name args) /\
  (forall dir file f1,
     output_dir args = value dir -> output_file args = value file ->
     Pathlib.mkdir f (Path dir) true true = inr f1 ->
     In (ev_load_vocoder (vocoder_name args)) (trace r)).
Proof.
  intros Hp r. subst r. rewrite (main_parsed _ _ _ _ Hp).
  on_run lib args f;
    (split;
     [ intros wv Hin; in_cases Hin; injection Hin; intros; subst; reflexivity
     | split;
       [ intros wcls warc wckpt wmel wvocab Hin; in_cases Hin; injection Hin; intros; subst;
         (split; [reflexivity|cbn [In]; auto 20])
       | split;
         [ intros wa Hin; in_cases Hin; injection Hin as <-;
           cbn [i_mel_spec_type i_vocoder i_model_obj];
           (split; [reflexivity|]); (split; [first [assumption | reflexivity]|]);
           eexists _, _, _, _; (split; [|eassumption]); cbn [In]; auto 20
         | split;
           [ intros Hres;
             first
               [ discriminate Hres
               | split; [cbn [In]; auto 20|];
                 split; [eexists _, _, _, _; cbn [In]; auto 20|];
                 eexists; (split; [cbn [In]; auto 30|reflexivity]) ]
           | intros wdir wfile wf1 Hd Hf Hmk;
             first [discriminate Hd | discriminate Hf | congruence | cbn [In]; auto 20] ] ] ] ]).
Qed.

(** C2. For every parsed argument set, the audio is written to the path
    that joins [--output_dir] and [--output_file], with the audio and the
    sample rate that the inference call returned; a run that returns has
    written it; and two argument sets that agree on these two arguments
    write to the same path, whatever the others are. *)
Theorem audio_written_to_joined_path (lib : library PyObj) (argv : list string) (f : fs)
    (args : Namespace) :
  parse_args bi parser defaults argv = inr args ->
  let r := main bi lib argv f in
  (forall p d sr, In (ev_sf_write p d sr) (trace r) ->
     (exists dir file,
        output_dir args = value dir /\ output_file args = value file /\
        p = truediv (Path dir) file) /\
     exists a spectrogram,
       In (ev_infer_process a) (trace r) /\
       lib_infer_process lib a = inr (d, sr, spectrogram)) /\
  (result r = inr tt ->
     exists dir file d sr,
       output_dir args = value dir /\ output_file args = value file /\
       In (ev_sf_write (truediv (Path dir) file) d sr) (trace r)) /\
  (forall (lib' : library PyObj) argv' f' args' p d sr p' d' sr',
     parse_args bi parser defaults argv' = inr args' ->
     output_dir args' = output_dir args -> output_file args' = output_file args ->
     In (ev_sf_write p d sr) (trace r) ->
     In (ev_sf_write p' d' sr') (trace (main bi lib' argv' f')) ->
     p' = p).
Proof.
  intros Hp r.
  assert (Hpath : forall (l : library PyObj) av fv ns p d sr,
            parse_args bi parser defaults av = inr ns ->
            In (ev_sf_write p d sr) (trace (main bi l av fv)) ->
            exists dir file,
              output_dir ns = value dir /\ output_file ns = value file /\
              p = truediv (Path dir) file).
  { intros l av fv ns p d sr Hns. rewrite (main_parsed _ _ _ _ Hns). intros Hin.
    on_run l ns fv; in_cases Hin; injection Hin as <- _ _; eauto. }
  split; [|split].
  - subst r. rewrite (main_parsed _ _ _ _ Hp).
    on_run lib args f; intros wp wd wsr Hin; in_cases Hin;
      injection Hin as <- <- <-; (split; [eauto|]);
      eexists _, _; (split; [|eassumption]); cbn [In]; auto 20.
  - subst r. rewrite (main_parsed _ _ _ _ Hp).
    on_run lib args f; intros Hres; try discriminate;
      eexists _, _, _, _; (split; [reflexivity|]); (split; [reflexivity|]);
      cbn [In]; auto 20.
  - intros lib' argv' f' args' p d sr p' d' sr' Hp' Hd Hf Hin Hin'.
    destruct (Hpath _ _ _ _ _ _ _ Hp Hin) as (dir & file & H1 & H2 & ->).
    destruct (Hpath _ _ _ _ _ _ _ Hp' Hin') as (dir' & file' & H1' & H2' & ->).
    congruence.
Qed.

(** C3. Once the model configuration is loaded, its [backbone] decides:
    "DiT" selects the class [DiT] and "UNetT" the class [UNetT] for the
    call that loads the model; any other name makes [main] raise the
    [ValueError] that names it, and nothing happens after the
    configuration was loaded: no model is loaded, nothing is retried. *)
Theorem backbone_selects_model_class (lib : library PyObj) (argv : list string) (f : fs)
    (args : Namespace) (path : string) (cfg : model_config PyObj) :
  parse_args bi parser defaults argv = inr args ->
  let r := main bi lib argv f in
  In (ev_OmegaConf_load path) (trace r) ->
  lib_OmegaConf_load lib path = inr cfg ->
  (backbone cfg = "DiT" ->
     In (ev_load_model DiT (arch cfg) (ckpt_file args) (vocoder_name args)
           (vocab_file args)) (trace r) /\
     forall cls arc ckpt mel vocab,
       In (ev_load_model cls arc ckpt mel vocab) (trace r) -> cls = DiT) /\
  (backbone cfg = "UNetT" ->
     In (ev_load_model UNetT (arch cfg) (ckpt_file args) (vocoder_name args)
           (vocab_file args)) (trace r) /\
     forall cls arc ckpt mel vocab,
       In (ev_load_model cls arc ckpt mel vocab) (trace r) -> cls = UNetT) /\
  (backbone cfg <> "DiT" -> backbone cfg <> "UNetT" ->
     result r = inl (Exc ValueError ("Unknown model backbone: " +:+ backbone cfg)) /\
     last (trace r) = Some (ev_OmegaConf_load path) /\
     forall cls arc ckpt mel vocab, ~ In (ev_load_model cls arc ckpt mel vocab) (trace r)).
Proof.
  intros Hp r Hin Hcfg. subst r. revert Hin. rewrite (main_parsed _ _ _ _ Hp). intros Hin.
  assert (Hone : forall m, lib_OmegaConf_load lib path = inr m -> m = cfg) by congruence.
  on_run lib args f; in_cases Hin; injection Hin as <-; try congruence;
    repeat match goal with
           | H : lib_OmegaConf_load _ _ = inr ?m |- _ => apply Hone in H; subst m
           | H : (_ =? _) = true |- _ => apply String.eqb_eq in H
           | H : (_ =? _) = false |- _ => apply String.eqb_neq in H
           end;
    (split;
     [ intros Hb; first [congruence | split; [cbn [In]; auto 20|]]
     | split;
       [ intros Hb; first [congruence | split; [cbn [In]; auto 20|]]
       | intros Hb1 Hb2;
         first [congruence | split; [reflexivity|split; [reflexivity|]]] ] ]);
    intros cls arc ckpt mel vocab Hin'; in_cases Hin'; now injection Hin'.
Qed.

(** C4. Once the output directory exists and the vocoder is loaded,
    [main] resolves the model configuration by asking the installed
    [f5_tts] package for [configs/<model>.yaml] first.  What the package
    returns is the path that is loaded.  When the lookup raises
    [ImportError] or [FileNotFoundError] (or a subclass), and only then,
    [configs/<model>.yaml] is looked up in the working directory: the
    file is loaded if it exists, and otherwise [main] raises the
    [FileNotFoundError] that names the model and stops.  Any other
    exception of the lookup leaves [main] as it is. *)
Theorem model_config_path_resolution (lib : library PyObj) (argv : list string) (f f1 : fs)
    (args : Namespace) (dir file : string) (vocoder : PyObj) :
  parse_args bi parser defaults argv = inr args ->
  output_dir args = value dir -> output_file args = value file ->
  Pathlib.mkdir f (Path dir) true true = inr f1 ->
  lib_load_vocoder lib (vocoder_name args) = inr vocoder ->
  let r := main bi lib argv f in
  let rel := "configs/" +:+ format (model args) +:+ ".yaml" in
  In (ev_files "f5_tts" rel) (trace r) /\
  (forall q, In (ev_exists q) (trace r) ->
     q = rel /\
     exists e, lib_files lib "f5_tts" rel = inl e /\
               isinstance e [ImportError; FileNotFoundError] = true) /\
  (forall q, In (ev_OmegaConf_load q) (trace r) ->
     lib_files lib "f5_tts" rel = inr q \/
     q = rel /\ os_path_exists f1 rel = true /\
     exists e, lib_files lib "f5_tts" rel = inl e /\
               isinstance e [ImportError; FileNotFoundError] = true) /\
  (forall p, lib_files lib "f5_tts" rel = inr p -> In (ev_OmegaConf_load p) (trace r)) /\
  (forall e, lib_files lib "f5_tts" rel = inl e ->
     isinstance e [ImportError; FileNotFoundError] = true ->
     In (ev_exists rel) (trace r) /\
     (os_path_exists f1 rel = true -> In (ev_OmegaConf_load rel) (trace r)) /\
     (os_path_exists f1 rel = false ->
        result r =
          inl (Exc FileNotFoundError
                 ("Could not find model config for " +:+ format (model args))) /\
        last (trace r) = Some (ev_exists rel))) /\
  (forall e, lib_files lib "f5_tts" rel = inl e ->
     isinstance e [ImportError; FileNotFoundError] = false ->
     result r = inl e /\ last (trace r) = Some (ev_files "f5_tts" rel)).
Proof.
  intros Hp Hod Hof Hmk Hvoc r rel. subst r rel. rewrite (main_parsed _ _ _ _ Hp).
  on_run lib args f; try discriminate Hod; try discriminate Hof;
    injection Hod as ->; try congruence;
    match goal with
    | H : Pathlib.mkdir _ _ _ _ = inr ?g |- _ =>
        assert (g = f1) by congruence; subst g
    end;
    (split; [cbn [In]; auto 20|]);
    (split; [intros q Hin; in_cases Hin; injection Hin as <-; eauto|]);
    (split; [intros q Hin; in_cases Hin; injection Hin as <-; eauto 10|]);
    (split; [intros q Hq; first [discriminate Hq | injection Hq as <-; cbn [In]; auto 20]|]);
    (split; intros e' Hf Hi; first [discriminate Hf | injection Hf as <-]);
    try congruence;
    repeat match goal with
           | |- _ /\ _ => split
           | |- _ -> _ => intro
           end;
    first [reflexivity | congruence | cbn [In]; auto 20].
Qed.

(** C6. [--remove_silence] is a boolean flag ([store_true]) that
    defaults to false, and the parsed value tells whether the flag was
    passed.  Silence is removed from the generated file only if the flag
    was passed, and only after the call that wrote the audio to the same
    path has returned; and if the flag was passed, silence is removed as
    soon as the audio is written. *)
Theorem remove_silence_flag (lib : library PyObj) (argv : list string) (f : fs)
    (args : Namespace) :
  parse_args bi parser defaults argv = inr args ->
  let r := main bi lib argv f in
  remove_silence defaults = false /\
  lookup_option parser "--remove_silence" = Some (store_true set_remove_silence) /\
  remove_silence args = given "--remove_silence" argv /\
  (forall p, In (ev_remove_silence p) (trace r) ->
     given "--remove_silence" argv = true /\
     exists t1 t2 d sr,
       trace r = (t1 ++ ev_sf_write p d sr :: t2)%list /\
       In (ev_remove_silence p) t2 /\
       lib_sf_write lib p d sr = inr tt) /\
  (given "--remove_silence" argv = true ->
     forall p d sr, In (ev_sf_write p d sr) (trace r) ->
       lib_sf_write lib p d sr = inr tt -> In (ev_remove_silence p) (trace r)).
Proof.
  intros Hp r. subst r. rewrite (main_parsed _ _ _ _ Hp).
  pose proof (remove_silence_given bi argv args (proj1 (parse_args_inr _ _ _) Hp)) as Hg.
  rewrite <- Hg.
  split; [reflexivity|]. split; [reflexivity|]. split; [reflexivity|].
  on_run lib args f;
    (split;
     [ intros wp Hin; in_cases Hin; injection Hin as <-; (split; [reflexivity|]);
       eexists _, _, _, _; (split; [find_split|]); cbn [In]; auto 10
     | intros Hrs wp wd wsr Hin Hw; in_cases Hin; injection Hin as <- <- <-;
       first [congruence | cbn [In]; auto 30] ]).
Qed.

(** What a run does first when both path attributes are strings and the
    directory can be made. *)
Lemma run_reaches_load_vocoder (lib : library PyObj) args f dir file f1 :
  output_dir args = value dir -> output_file args = value file ->
  Pathlib.mkdir f (Path dir) true true = inr f1 ->
  exists t,
    trace (run lib args f) =
    ev_mkdir (Path dir) :: ev_print ("Loading vocoder: " +:+ format (vocoder_name args))
      :: ev_load_vocoder (vocoder_name args) :: t.
Proof.
  intros Hd Hf Hmk.
  on_run lib args f; try discriminate Hd; try discriminate Hf; injection Hd as ->;
    first [congruence | eexists; reflexivity].
Qed.


(** C9 (where it fails). For the command line [--output_dir=--] the
    parser leaves the empty list in [output_dir], [Path] refuses it, and
    [main] raises [TypeError] with nothing done: no directory is created,
    in any file system.  The neighbouring value [-] is a directory name
    like any other, and [main] starts by creating it. *)
Theorem output_dir_dashes_raises (lib : library PyObj) (f : fs) :
  parse_args bi parser defaults ["--output_dir=--"] =
    inr (set_output_dir empty_list defaults) /\
  main bi lib ["--output_dir=--"] f =
    (inl (Exc TypeError "expected str, bytes or os.PathLike object, not list"), f,
     [ev_parse_args ["--output_dir=--"]]) /\
  parse_args bi parser defaults ["--output_dir=-"] =
    inr (set_output_dir (value "-") defaults) /\
  exists t, trace (main bi lib ["--output_dir=-"] f) =
            ev_parse_args ["--output_dir=-"] :: ev_mkdir (Path "-") :: t.
Proof.
  assert (Hp : parse_args bi parser defaults ["--output_dir=--"] =
               inr (set_output_dir empty_list defaults)) by reflexivity.
  assert (Hq : parse_args bi parser defaults ["--output_dir=-"] =
               inr (set_output_dir (value "-") defaults)) by reflexivity.
  split; [exact Hp|]. split; [|split; [exact Hq|]].
  - rewrite (main_parsed _ _ _ _ Hp). reflexivity.
  - rewrite (main_parsed _ _ _ _ Hq). read_run.
    set (args := set_output_dir (value "-") defaults).
    assert (Hod : output_dir args = value "-") by reflexivity.
    clearbody args.
    on_run lib args f; try discriminate Hod; injection Hod as ->;
      eexists; reflexivity.
Qed.

(** C5 (where it fails). For the command line [--vocoder_name=--] the
    parser checks nothing: the argument [--] is dropped, the empty list is
    stored in [vocoder_name], and [main], once the output directory is in
    place, prints it and loads the vocoder for it.  The same value as
    the next argument string, and any other value outside the choices
    after [=], make [parse_args] exit. *)
Theorem vocoder_name_dashes_unchecked (lib : library PyObj) (f : fs) :
  parse_args bi parser defaults ["--vocoder_name=--"] =
    inr (set_vocoder_name empty_list defaults) /\
  (forall f1, Pathlib.mkdir f (Path OUTPUT_DIR) true true = inr f1 ->
     exists t,
       trace (main bi lib ["--vocoder_name=--"] f) =
       ev_parse_args ["--vocoder_name=--"] :: ev_mkdir (Path OUTPUT_DIR)
         :: ev_print "Loading vocoder: []" :: ev_load_vocoder empty_list :: t) /\
  parse_args bi parser defaults ["--vocoder_name"; "--"] = inl (Exc SystemExit "") /\
  parse_args bi parser defaults ["--vocoder_name=hifigan"] = inl (Exc SystemExit "").
Proof.
  assert (Hp : parse_args bi parser defaults ["--vocoder_name=--"] =
               inr (set_vocoder_name empty_list defaults)) by reflexivity.
  split; [exact Hp|]. split; [|split; reflexivity].
  intros f1 Hmk. rewrite (main_parsed _ _ _ _ Hp). read_run.
  destruct (run_reaches_load_vocoder lib (set_vocoder_name empty_list defaults) f
              OUTPUT_DIR OUTPUT_FILE f1 eq_refl eq_refl Hmk) as [t Ht].
  rewrite Ht. eexists. reflexivity.
Qed.

End Run.

End RunFacts.

(* ===================================================================== *)
(** * More about the command line *)
(* ===================================================================== *)

Module CommandLineFacts.
Import Py Posix Pathlib Argparse TtsInfer Terms ArgparseFacts ParserFacts.

(** ** Strings *)



Lemma split_once_some sep s l r :
  PyStr.split_once sep s = Some (l, r) ->
  s = l +:+ String sep r /\ PyStr.contains sep l = false.
Proof.
  revert l r. induction s as [|c s IH]; intros l r; simpl; [discriminate|].
  destruct (Ascii.eqb c sep) eqn:E.
  - intros [= <- <-]. apply Ascii.eqb_eq in E as ->. split; reflexivity.
  - destruct (PyStr.split_once sep s) as [[l' r']|]; [|discriminate].
    intros [= <- <-]. destruct (IH _ _ eq_refl) as [-> Hc].
    split; [reflexivity|]. simpl. now rewrite E.
Qed.


Lemma startswith_append_inv o s v :
  PyStr.startswith o (s +:+ v) = true -> PyStr.startswith o s = true.
Proof.
  unfold PyStr.startswith. revert o. induction s as [|c s IH]; intros o.
  - intros _. now destruct o.
  - change (String c s +:+ v) with (String c (s +:+ v)).
    destruct o as [|d o]; cbn [String.prefix]; [discriminate|].
    destruct (ascii_dec c d); [apply IH|discriminate].
Qed.


(** ** The table of options *)


Lemma lookup_registered o a : In (o, a) parser -> lookup_option parser o = Some a.
Proof. intros H. option_cases H; reflexivity. Qed.

Lemma lookup_option_some o :
  In o option_strings -> exists a, lookup_option parser o = Some a.
Proof.
  unfold option_strings. intros ((o' & a) & <- & Hin)%in_map_iff.
  exists a. now apply lookup_registered.
Qed.













Section Generic.
Context {N : Type} (bi : builtins) (p : Argparse.parser N).





End Generic.














Section Main.
Context {PyObj : Type} (bi : builtins).



End Main.




















End CommandLineFacts.

(* ===================================================================== *)
(** * More about paths and [Path.mkdir] *)
(* ===================================================================== *)

Module PathFacts.
Import Py Posix Pathlib Terms PosixFacts.






















End PathFacts.

(* ===================================================================== *)
(** * More about a run *)
(* ===================================================================== *)

Module OutcomeFacts.
Import Py Posix Pathlib Argparse TtsInfer Terms.
Import PosixFacts ParserFacts RunFacts CommandLineFacts PathFacts.

Section Run.
Context {PyObj : Type} (bi : builtins).



End Run.
End OutcomeFacts.

(* ===================================================================== *)
(** * The stages and the files of a run *)
(* ===================================================================== *)

Module StageFacts.
Import Py Posix Pathlib Argparse TtsInfer Terms.
Import PosixFacts ParserFacts RunFacts CommandLineFacts PathFacts.

Section Run.
Context {PyObj : Type} (bi : builtins).














End Run.
End StageFacts.

(* ===================================================================== *)
(** * The properties on sample runs *)
(* ===================================================================== *)

Module Runs.
Import Py Posix Pathlib Argparse TtsInfer ParserFacts RunFacts.

(** C1, as the specification orders the stages: the run of [main]
    without arguments in the sample world returns, and it loads the
    vocoder before it resolves the path of the model configuration, so it
    does not follow the sequence of the specification. *)
Lemma spec_sequence_not_followed :
  result (main Sample.bi Sample.lib [] Sample.home) = inr tt /\
  stages (trace (main Sample.bi Sample.lib [] Sample.home)) =
    [parse_config; load_vocoder; resolve_model_config_path; load_model;
     preprocess_reference; run_inference; write_audio] /\
  follows spec_sequence (main Sample.bi Sample.lib [] Sample.home) = false.
Proof. vm_compute. repeat split. Qed.

(** The run without arguments writes [outputs/<OUTPUT_FILE>]. *)
Lemma audio_written_sample :
  parse_args Sample.bi parser defaults [] = inr defaults /\
  exists dir file d sr,
    output_dir defaults = value dir /\ output_file defaults = value file /\
    In (ev_sf_write (truediv (Path dir) file) d sr)
       (trace (main Sample.bi Sample.lib [] Sample.home)).
Proof.
  split; [reflexivity|].
  apply (proj1 (proj2 (audio_written_to_joined_path Sample.bi Sample.lib [] Sample.home
                         defaults eq_refl))).
  reflexivity.
Defined.

(** A configuration with the backbone "MMDiT" stops [main]. *)
Lemma unknown_backbone_sample :
  parse_args Sample.bi parser defaults [] = inr defaults /\
  In (ev_OmegaConf_load "/site-packages/f5_tts/configs/F5TTS_Base.yaml")
     (trace (main Sample.bi Sample.lib_mmdit [] Sample.home)) /\
  lib_OmegaConf_load Sample.lib_mmdit "/site-packages/f5_tts/configs/F5TTS_Base.yaml" =
    inr {| backbone := "MMDiT"; arch := tt |} /\
  result (main Sample.bi Sample.lib_mmdit [] Sample.home) =
    inl (Exc ValueError "Unknown model backbone: MMDiT") /\
  last (trace (main Sample.bi Sample.lib_mmdit [] Sample.home)) =
    Some (ev_OmegaConf_load "/site-packages/f5_tts/configs/F5TTS_Base.yaml").
Proof.
  assert (Hin : In (ev_OmegaConf_load "/site-packages/f5_tts/configs/F5TTS_Base.yaml")
                  (trace (main Sample.bi Sample.lib_mmdit [] Sample.home)))
    by (vm_compute; auto 10).
  split; [reflexivity|]. split; [exact Hin|]. split; [reflexivity|].
  pose proof (backbone_selects_model_class Sample.bi Sample.lib_mmdit [] Sample.home
                defaults "/site-packages/f5_tts/configs/F5TTS_Base.yaml"
                {| backbone := "MMDiT"; arch := tt |} eq_refl) as H.
  cbv zeta in H.
  destruct (H Hin eq_refl) as (_ & _ & H3).
  destruct H3 as (Hr & Hl & _); [discriminate|discriminate|].
  split; assumption.
Defined.

(** Without the package and without [configs/] in the working directory,
    [main] raises the [FileNotFoundError] that names the model. *)
Lemma missing_config_sample :
  parse_args Sample.bi parser defaults [] = inr defaults /\
  output_dir defaults = value OUTPUT_DIR /\
  output_file defaults = value OUTPUT_FILE /\
  Pathlib.mkdir Sample.home (Path OUTPUT_DIR) true true = inr Sample.home_with_outputs /\
  lib_load_vocoder Sample.lib_no_package (vocoder_name defaults) = inr tt /\
  result (main Sample.bi Sample.lib_no_package [] Sample.home) =
    inl (Exc FileNotFoundError "Could not find model config for F5TTS_Base").
Proof.
  assert (Hmk : Pathlib.mkdir Sample.home (Path OUTPUT_DIR) true true
                = inr Sample.home_with_outputs) by (vm_compute; reflexivity).
  split; [reflexivity|]. split; [reflexivity|]. split; [reflexivity|].
  split; [exact Hmk|]. split; [reflexivity|].
  pose proof (model_config_path_resolution Sample.bi Sample.lib_no_package []
                Sample.home Sample.home_with_outputs defaults OUTPUT_DIR OUTPUT_FILE tt
                eq_refl eq_refl eq_refl) as H.
  cbv zeta in H.
  destruct (H Hmk eq_refl) as (_ & _ & _ & _ & H5 & _).
  destruct (H5 (Exc ModuleNotFoundError "No module named 'f5_tts'") eq_refl eq_refl)
    as (_ & _ & H6).
  apply H6. vm_compute. reflexivity.
Defined.

(** With [--remove_silence] on the command line, silence is removed
    from the written file. *)
Lemma remove_silence_sample :
  parse_args Sample.bi parser defaults ["--remove_silence"] =
    inr (set_remove_silence true defaults) /\
  In (ev_remove_silence (truediv (Path OUTPUT_DIR) OUTPUT_FILE))
     (trace (main Sample.bi Sample.lib ["--remove_silence"] Sample.home)).
Proof.
  split; [reflexivity|].
  pose proof (remove_silence_flag Sample.bi Sample.lib ["--remove_silence"] Sample.home
                (set_remove_silence true defaults) eq_refl) as H.
  cbv zeta in H. destruct H as (_ & _ & _ & _ & H5).
  apply (H5 eq_refl _ tt tt); [|reflexivity].
  vm_compute. auto 20.
Defined.

(** A command line that passes two options leaves the other attributes
    at their defaults. *)
Lemma defaults_sample :
  parse_args Sample.bi parser defaults ["--model"; "F5TTS_Small"; "--remove_silence"] =
    inr (set_remove_silence true (set_model (value "F5TTS_Small") defaults)) /\
  vocoder_name (set_remove_silence true (set_model (value "F5TTS_Small") defaults)) =
    value "vocos" /\
  speed (set_remove_silence true (set_model (value "F5TTS_Small") defaults)) =
    value 1.0%float.
Proof.
  split; [reflexivity|].
  pose proof (defaults_when_omitted Sample.bi ["--model"; "F5TTS_Small"; "--remove_silence"]
                (set_remove_silence true (set_model (value "F5TTS_Small") defaults))
                eq_refl) as H.
  destruct H as (_ & _ & Hv & Hs & _).
  split; [apply Hv|apply Hs]; reflexivity.
Defined.

(** With [--vocoder_name bigvgan] the run returns, and the vocoder, the
    model and the inference are all called for "bigvgan". *)
Lemma vocoder_name_sample :
  parse_args Sample.bi parser defaults ["--vocoder_name"; "bigvgan"] =
    inr (set_vocoder_name (value "bigvgan") defaults) /\
  result (main Sample.bi Sample.lib ["--vocoder_name"; "bigvgan"] Sample.home) = inr tt /\
  In (ev_load_vocoder (value "bigvgan"))
     (trace (main Sample.bi Sample.lib ["--vocoder_name"; "bigvgan"] Sample.home)) /\
  (exists cls arc ckpt vocab,
     In (ev_load_model cls arc ckpt (value "bigvgan") vocab)
        (trace (main Sample.bi Sample.lib ["--vocoder_name"; "bigvgan"] Sample.home))) /\
  exists a,
    In (ev_infer_process a)
       (trace (main Sample.bi Sample.lib ["--vocoder_name"; "bigvgan"] Sample.home)) /\
    i_mel_spec_type a = value "bigvgan".
Proof.
  assert (Hres : result (main Sample.bi Sample.lib ["--vocoder_name"; "bigvgan"] Sample.home)
                 = inr tt) by (vm_compute; reflexivity).
  split; [reflexivity|]. split; [exact Hres|].
  pose proof (vocoder_name_consistent Sample.bi Sample.lib ["--vocoder_name"; "bigvgan"]
                Sample.home (set_vocoder_name (value "bigvgan") defaults) eq_refl) as H.
  cbv zeta in H. destruct H as (_ & _ & _ & H4 & _).
  exact (H4 Hres).
Defined.

End Runs.

(* ===================================================================== *)
(** * More sample runs *)
(* ===================================================================== *)

Module MoreRuns.
Import Py Posix Pathlib Argparse TtsInfer Terms.
Import ParserFacts RunFacts CommandLineFacts PathFacts OutcomeFacts StageFacts.




















End MoreRuns.
